(* Verification model of src/app.js: an Express backend with session-held
   JWT credentials, a User collection and a Post collection (Mongoose). *)

From Stdlib Require Import ZArith.
From stdpp Require Import base gmap strings list pretty.

Local Open Scope string_scope.
Local Set Warnings "-register-all".

(* ===================================================================== *)
(* JavaScript values reaching the handlers through req.body               *)
(* ===================================================================== *)

(* What express.json / express.urlencoded can put in a body field. Numbers
   are modelled by their integer value. *)
Inductive JsVal :=
| JUndef
| JNull
| JBool (b : bool)
| JNum (z : Z)
| JStr (s : string)
| JArr (l : list JsVal)
| JObj (fields : list (string * JsVal)).

(* `!v` is false exactly for the truthy values. *)
Definition js_truthy (v : JsVal) : bool :=
  match v with
  | JUndef | JNull => false
  | JBool b => b
  | JNum z => negb (Z.eqb z 0)
  | JStr s => negb (String.eqb s "")
  | JArr _ | JObj _ => true
  end.

(* `typeof v === "string"` *)
Definition js_is_string (v : JsVal) : bool :=
  match v with JStr _ => true | _ => false end.

(* Property read `o[k]` on a parsed JSON object: the last binding wins. *)
Definition js_get (fields : list (string * JsVal)) (k : string) : option JsVal :=
  fold_left (fun acc kv => if String.eqb kv.1 k then Some kv.2 else acc) fields None.

(* ===================================================================== *)
(* Mongoose String paths: stored values and casting                       *)
(* ===================================================================== *)

Definition ObjectId := nat.

(* The content of a String path in a stored document: missing (undefined),
   null, or a string. *)
Inductive FieldVal :=
| FUndef
| FNull
| FStr (s : string).

(* Mongoose's castString: null/undefined pass through, a document-like
   object with a non-empty string _id casts to that _id, a value with its
   own toString (numbers, booleans, strings) casts to toString(), anything
   else (arrays, plain objects) throws a CastError (None). *)
Definition castString (v : JsVal) : option FieldVal :=
  match v with
  | JUndef => Some FUndef
  | JNull => Some FNull
  | JBool true => Some (FStr "true")
  | JBool false => Some (FStr "false")
  | JNum z => Some (FStr (pretty z))
  | JStr s => Some (FStr s)
  | JArr _ => None
  | JObj fs =>
      match js_get fs "_id" with
      | Some (JStr s) => if String.eqb s "" then None else Some (FStr s)
      | _ => None
      end
  end.

(* Query equality on a field: a null/undefined operand matches a missing
   or null field, a string operand matches that string. *)
Definition field_eq (stored c : FieldVal) : bool :=
  match c, stored with
  | (FUndef | FNull), (FUndef | FNull) => true
  | FStr s, FStr s' => String.eqb s s'
  | _, _ => false
  end.

Definition is_operator (k : string) : bool :=
  String.prefix "$" k.

Fixpoint cast_all (l : list JsVal) : option (list FieldVal) :=
  match l with
  | [] => Some []
  | v :: l' =>
      match castString v, cast_all l' with
      | Some c, Some cs => Some (c :: cs)
      | _, _ => None
      end
  end.

(* Operand of $in / $nin: an array is cast element-wise, a single value is
   wrapped in a one-element array. *)
Definition cast_in_operand (v : JsVal) : option (list FieldVal) :=
  match v with
  | JArr l => cast_all l
  | _ => match castString v with Some c => Some [c] | None => None end
  end.

(* One query operator on a String path, cast into a test on the stored
   field. The model covers $eq, $ne, $in and $nin. Mongoose also casts
   and runs other operators ($gt, $gte, $lt, $lte, $regex, $exists, ...);
   those are outside this model and are mapped to None here, so for a
   body value using them the model's 500 is not the code's answer. *)
Definition op_cast (k : string) (v : JsVal) : option (FieldVal -> bool) :=
  if String.eqb k "$eq" then
    match castString v with Some c => Some (fun f => field_eq f c) | None => None end
  else if String.eqb k "$ne" then
    match castString v with Some c => Some (fun f => negb (field_eq f c)) | None => None end
  else if String.eqb k "$in" then
    match cast_in_operand v with
    | Some cs => Some (fun f => existsb (field_eq f) cs) | None => None end
  else if String.eqb k "$nin" then
    match cast_in_operand v with
    | Some cs => Some (fun f => negb (existsb (field_eq f) cs)) | None => None end
  else None.

Fixpoint ops_cast (ops : list (string * JsVal)) : option (FieldVal -> bool) :=
  match ops with
  | [] => Some (fun _ => true)
  | (k, v) :: ops' =>
      match op_cast k v, ops_cast ops' with
      | Some t, Some t' => Some (fun f => t f && t' f)
      | _, _ => None
      end
  end.

(* A filter entry `{ path: q }` on a String path, q taken from req.body
   without sanitisation, cast before the query runs: an array becomes $in,
   an object with a `$` key is read as a set of query operators, any other
   value is cast and compared for equality. None is a CastError. *)
Definition query_cast (q : JsVal) : option (FieldVal -> bool) :=
  match q with
  | JArr l =>
      match cast_all l with
      | Some cs => Some (fun f => existsb (field_eq f) cs) | None => None end
  | JObj fs =>
      if existsb (fun kv => is_operator kv.1) fs then ops_cast fs
      else match castString q with
           | Some c => Some (fun f => field_eq f c) | None => None end
  | _ =>
      match castString q with
      | Some c => Some (fun f => field_eq f c) | None => None end
  end.

(* ===================================================================== *)
(* Collections                                                            *)
(* ===================================================================== *)

(* mongoose.model("User", { username: String, email: String, password: String }) *)
Record User := mkUser {
  username : FieldVal;
  email : FieldVal;
  password : FieldVal
}.

(* mongoose.model("Post", { userId: ObjectId, text: String }) *)
Record Post := mkPost {
  userId : ObjectId;
  text : FieldVal
}.

(* The document store, each collection keyed by _id. *)
Record Store := mkStore {
  users : gmap ObjectId User;
  posts : gmap ObjectId Post
}.

(* ===================================================================== *)
(* Token service (jsonwebtoken)                                           *)
(* ===================================================================== *)

(* The signed payload { userId, username }. *)
Record Payload := mkPayload {
  p_userId : ObjectId;
  p_username : FieldVal
}.

(* A signed credential: payload, iat and exp (whole seconds), and the key
   that signed it (standing for the HMAC signature). *)
Record Token := mkToken {
  tok_payload : Payload;
  tok_iat : Z;
  tok_exp : Z;
  tok_key : string
}.

(* jwt.sign(payload, key, { expiresIn: "1h" }) at time now_ms (milliseconds):
   iat = floor(now / 1000), exp = iat + 3600. *)
Definition jwt_sign (key : string) (now_ms : Z) (p : Payload) : Token :=
  let iat := Z.div now_ms 1000 in
  mkToken p iat (iat + 3600) key.

Inductive JwtError := InvalidSignature | TokenExpired.

(* jwt.verify(token, key) at time now_ms: a wrong key fails the signature
   check; the token is expired once floor(now / 1000) >= exp. *)
Definition jwt_verify (key : string) (now_ms : Z) (t : Token) : JwtError + Payload :=
  if negb (String.eqb (tok_key t) key) then inl InvalidSignature
  else if Z.leb (tok_exp t) (Z.div now_ms 1000) then inl TokenExpired
  else inr (tok_payload t).

(* ===================================================================== *)
(* Responses and the two guards                                           *)
(* ===================================================================== *)

(* JSON bodies sent by the handlers. *)
Inductive Body :=
| BMessage (message : string)
| BCreated (message : string) (id : ObjectId) (post : Post)
| BPosts (ps : list (ObjectId * Post))
| BUpdated (message : string) (id : ObjectId) (updatedPost : Post)
| BDeleted (message : string) (id : ObjectId) (deletedPost : Post).

Inductive Response :=
| Json (status : Z) (body : Body)
| Redirect (location : string)
| SendFile (file : string).

Definition internal_error : Response := Json 500 (BMessage "Internal Server Error").

Inductive Guard :=
| Pass (decoded : Payload)
| Reject (r : Response).

(* authenticateJWT: strict guard of the post API. *)
Definition authenticateJWT (key : string) (now_ms : Z) (token : option Token) : Guard :=
  match token with
  | None => Reject (Json 401 (BMessage "Unauthorized"))
  | Some t =>
      match jwt_verify key now_ms t with
      | inr decoded => Pass decoded
      | inl _ => Reject (Json 401 (BMessage "Invalid token"))
      end
  end.

(* requireAuth: redirecting guard of the page routes. *)
Definition requireAuth (key : string) (now_ms : Z) (token : option Token) : Guard :=
  match token with
  | None => Reject (Redirect "/login")
  | Some t =>
      match jwt_verify key now_ms t with
      | inr decoded => Pass decoded
      | inl _ => Reject (Redirect "/login")
      end
  end.

(* Template-literal rendering `${v}` of a String path. *)
Definition field_to_string (f : FieldVal) : string :=
  match f with FUndef => "undefined" | FNull => "null" | FStr s => s end.

(* ===================================================================== *)
(* Configuration                                                          *)
(* ===================================================================== *)

(* How the store layer treats a field set to undefined in an update
   document: older Mongoose versions send it as null, Mongoose 7 and later
   strip the key from the update. *)
Inductive UndefinedUpdate := UndefSetsNull | UndefStripped.

Record Config := mkConfig {
  SECRET_KEY : string;
  undefined_update : UndefinedUpdate
}.

(* ===================================================================== *)
(* Store operations                                                       *)
(* ===================================================================== *)

(* _id generated for a new document. *)
Definition new_post_id (st : Store) : ObjectId := fresh (dom (posts st)).
Definition new_user_id (st : Store) : ObjectId := fresh (dom (users st)).

(* Model.findOne(filter): the first matching document in store order. *)
Definition find_user (f : User -> bool) (st : Store) : option (ObjectId * User) :=
  match List.filter (fun iu => f iu.2) (map_to_list (users st)) with
  | [] => None
  | iu :: _ => Some iu
  end.

(* Post.find({ userId: u }) *)
Definition find_posts_by_user (u : ObjectId) (st : Store) : list (ObjectId * Post) :=
  List.filter (fun ip => Nat.eqb (userId ip.2) u) (map_to_list (posts st)).

(* The filter { _id: postId, userId: u } on the Post collection. *)
Definition find_owned_post (postId u : ObjectId) (st : Store) : option Post :=
  match posts st !! postId with
  | Some p => if Nat.eqb (userId p) u then Some p else None
  | None => None
  end.

(* The update document { text } after casting: None is a CastError,
   Some None an update left with no field, Some (Some t) sets text to t. *)
Definition cast_text_update (cfg : Config) (v : JsVal) : option (option FieldVal) :=
  match v with
  | JUndef =>
      match undefined_update cfg with
      | UndefSetsNull => Some (Some FNull)
      | UndefStripped => Some None
      end
  | _ => match castString v with Some c => Some (Some c) | None => None end
  end.

Definition apply_text_update (upd : option FieldVal) (p : Post) : Post :=
  match upd with Some t => mkPost (userId p) t | None => p end.

(* ===================================================================== *)
(* Route handlers                                                         *)
(* ===================================================================== *)

(* app.post("/post"), after authenticateJWT. *)
Definition create_post (user : Payload) (text_in : JsVal) (st : Store) : Response * Store :=
  if negb (js_truthy text_in) || negb (js_is_string text_in) then
    (Json 400 (BMessage "Please provide valid post content"), st)
  else
    match castString text_in with
    | None => (internal_error, st)
    | Some t =>
        let id := new_post_id st in
        let newPost := mkPost (p_userId user) t in
        (Json 201 (BCreated "Post created successfully" id newPost),
         mkStore (users st) (<[id := newPost]> (posts st)))
    end.

(* app.get("/posts"), after authenticateJWT; res.json answers 200. *)
Definition list_posts (user : Payload) (st : Store) : Response * Store :=
  (Json 200 (BPosts (find_posts_by_user (p_userId user) st)), st).

(* app.put("/posts/:postId"), after authenticateJWT: findOneAndUpdate with
   { new: true }; the update is cast before the query runs. *)
Definition update_post (cfg : Config) (user : Payload) (postId : ObjectId)
    (text_in : JsVal) (st : Store) : Response * Store :=
  match cast_text_update cfg text_in with
  | None => (internal_error, st)
  | Some upd =>
      match find_owned_post postId (p_userId user) st with
      | None => (Json 404 (BMessage "Post not found"), st)
      | Some p =>
          let p' := apply_text_update upd p in
          (Json 200 (BUpdated "Post updated successfully" postId p'),
           mkStore (users st) (<[postId := p']> (posts st)))
      end
  end.

(* app.delete("/posts/:postId"), after authenticateJWT: findOneAndDelete. *)
Definition delete_post (user : Payload) (postId : ObjectId) (st : Store) : Response * Store :=
  match find_owned_post postId (p_userId user) st with
  | None => (Json 404 (BMessage "Post not found"), st)
  | Some p =>
      (Json 200 (BDeleted "Post deleted successfully" postId p),
       mkStore (users st) (delete postId (posts st)))
  end.

(* app.post("/register"): the session's token is the last component. *)
Definition register (cfg : Config) (now_ms : Z) (username_in email_in password_in : JsVal)
    (st : Store) (session : option Token) : Response * Store * option Token :=
  match query_cast username_in, query_cast email_in with
  | Some mu, Some me =>
      match find_user (fun usr => mu (username usr) || me (email usr)) st with
      | Some _ => (Json 400 (BMessage "User already exists"), st, session)
      | None =>
          match castString username_in, castString email_in, castString password_in with
          | Some u, Some e, Some pw =>
              let id := new_user_id st in
              let newUser := mkUser u e pw in
              let token := jwt_sign (SECRET_KEY cfg) now_ms (mkPayload id (username newUser)) in
              (Redirect ("/index?username=" ++ field_to_string (username newUser)),
               mkStore (<[id := newUser]> (users st)) (posts st), Some token)
          | _, _, _ => (internal_error, st, session)
          end
      end
  | _, _ => (internal_error, st, session)
  end.

(* app.post("/login") *)
Definition login (cfg : Config) (now_ms : Z) (username_in password_in : JsVal)
    (st : Store) (session : option Token) : Response * Store * option Token :=
  match query_cast username_in, query_cast password_in with
  | Some mu, Some mp =>
      match find_user (fun usr => mu (username usr) && mp (password usr)) st with
      | None => (Json 401 (BMessage "Invalid credentials"), st, session)
      | Some (id, usr) =>
          let token := jwt_sign (SECRET_KEY cfg) now_ms (mkPayload id (username usr)) in
          (Redirect ("/index?username=" ++ field_to_string (username usr)), st, Some token)
      end
  | _, _ => (internal_error, st, session)
  end.

(* ===================================================================== *)
(* The application: one request against the store and the session         *)
(* ===================================================================== *)

(* :postId is taken as a well-formed ObjectId; a malformed id string,
   whose cast in the filter throws and is answered 500, is not modelled. *)
Inductive Request :=
| GetRoot
| GetRegisterPage
| GetLoginPage
| PostPost (text_in : JsVal)
| GetPosts
| PutPost (postId : ObjectId) (text_in : JsVal)
| DeletePost (postId : ObjectId)
| GetIndex
| PostRegister (username_in email_in password_in : JsVal)
| PostLogin (username_in password_in : JsVal)
| GetLogout.

(* A handler behind authenticateJWT; it never touches the session. *)
Definition with_strict (cfg : Config) (now_ms : Z) (session : option Token) (st : Store)
    (h : Payload -> Response * Store) : Response * Store * option Token :=
  match authenticateJWT (SECRET_KEY cfg) now_ms session with
  | Reject r => (r, st, session)
  | Pass user => let '(r, st') := h user in (r, st', session)
  end.

(* A handler behind requireAuth. *)
Definition with_redirect (cfg : Config) (now_ms : Z) (session : option Token) (st : Store)
    (h : Payload -> Response) : Response * Store * option Token :=
  match requireAuth (SECRET_KEY cfg) now_ms session with
  | Reject r => (r, st, session)
  | Pass user => (h user, st, session)
  end.

Definition app (cfg : Config) (now_ms : Z) (req : Request) (st : Store)
    (session : option Token) : Response * Store * option Token :=
  match req with
  | GetRoot => (SendFile "public/index.html", st, session)
  | GetRegisterPage => (SendFile "public/register.html", st, session)
  | GetLoginPage => (SendFile "public/login.html", st, session)
  | PostPost t => with_strict cfg now_ms session st (fun u => create_post u t st)
  | GetPosts => with_strict cfg now_ms session st (fun u => list_posts u st)
  | PutPost id t => with_strict cfg now_ms session st (fun u => update_post cfg u id t st)
  | DeletePost id => with_strict cfg now_ms session st (fun u => delete_post u id st)
  | GetIndex => with_redirect cfg now_ms session st (fun _ => SendFile "public/index.html")
  | PostRegister u e p => register cfg now_ms u e p st session
  | PostLogin u p => login cfg now_ms u p st session
  | GetLogout => (Redirect "/login", st, None)
  end.

(* Routes mounted behind authenticateJWT. *)
Definition strict_route (req : Request) : bool :=
  match req with
  | PostPost _ | GetPosts | PutPost _ _ | DeletePost _ => true
  | _ => false
  end.

(* Routes whose handler writes req.session.token. *)
Definition issues_credential (req : Request) : bool :=
  match req with
  | PostRegister _ _ _ | PostLogin _ _ => true
  | _ => false
  end.

(* The userId a request acts as: the payload authenticateJWT decodes. *)
Definition caller_id (cfg : Config) (now_ms : Z) (session : option Token) : option ObjectId :=
  match authenticateJWT (SECRET_KEY cfg) now_ms session with
  | Pass user => Some (p_userId user)
  | Reject _ => None
  end.

(* No two distinct users match each other on username, nor on email, in
   the sense of the query equality the registration check uses. *)
Definition unique_logins (st : Store) : Prop :=
  forall i j ui uj, users st !! i = Some ui -> users st !! j = Some uj -> i <> j ->
    field_eq (username ui) (username uj) = false /\ field_eq (email ui) (email uj) = false.

(* Every stored post belongs to a stored user, and the session's
   credential, when signed with the server key, names a stored user. *)
Definition owners_registered (key : string) (st : Store) (session : option Token) : Prop :=
  (forall id p, posts st !! id = Some p -> is_Some (users st !! userId p)) /\
  (forall t, session = Some t -> tok_key t = key -> is_Some (users st !! p_userId (tok_payload t))).

(* ===================================================================== *)
(* Concrete fixtures                                                      *)
(* ===================================================================== *)

Definition cfg0 : Config := mkConfig "s3cret" UndefStripped.
Definition empty_store : Store := mkStore ∅ ∅.
Definition alice : User := mkUser (FStr "alice") (FStr "a@x.com") (FStr "pw").
(* alice is user 1, bob user 2; post 5 belongs to alice. *)
Definition store_ab : Store :=
  mkStore {[ 1 := alice ]} {[ 5 := mkPost 1 (FStr "hi") ]}.
Definition alice_session : option Token :=
  Some (jwt_sign "s3cret" 1000 (mkPayload 1 (FStr "alice"))).
Definition bob_session : option Token :=
  Some (jwt_sign "s3cret" 1000 (mkPayload 2 (FStr "bob"))).

(* ===================================================================== *)
(* Lemmas about the store operations and the guards                       *)
(* ===================================================================== *)

Lemma with_strict_pass cfg now_ms session st h user :
  authenticateJWT (SECRET_KEY cfg) now_ms session = Pass user ->
  with_strict cfg now_ms session st h = ((h user).1, (h user).2, session).
Proof. intros H. unfold with_strict. rewrite H. by destruct (h user). Qed.

Lemma with_strict_reject cfg now_ms session st h r :
  authenticateJWT (SECRET_KEY cfg) now_ms session = Reject r ->
  with_strict cfg now_ms session st h = (r, st, session).
Proof. intros H. unfold with_strict. by rewrite H. Qed.

Lemma find_user_None f st :
  find_user f st = None <->
  (forall id usr, users st !! id = Some usr -> f usr = false).
Proof.
  unfold find_user. split.
  - intros H id usr Hid. destruct (f usr) eqn:Hf; [|done].
    assert (Hin : In (id, usr) (List.filter (fun iu => f iu.2) (map_to_list (users st)))).
    { apply filter_In. split; [|done].
      apply list_elem_of_In, elem_of_map_to_list, Hid. }
    destruct (List.filter _ _); [done | discriminate].
  - intros H. destruct (List.filter _ _) as [|[id usr] l] eqn:Hl; [done|].
    assert (Hin : In (id, usr) (List.filter (fun iu => f iu.2) (map_to_list (users st))))
      by (rewrite Hl; left; done).
    apply filter_In in Hin as [Hin Hf].
    apply list_elem_of_In, elem_of_map_to_list in Hin.
    simpl in Hf. by rewrite (H id usr Hin) in Hf.
Qed.

Lemma find_user_Some f st id usr :
  find_user f st = Some (id, usr) -> users st !! id = Some usr /\ f usr = true.
Proof.
  unfold find_user. destruct (List.filter _ _) as [|iu l] eqn:Hl; [done|].
  intros [= ->].
  assert (Hin : In (id, usr) (List.filter (fun iu => f iu.2) (map_to_list (users st))))
    by (rewrite Hl; left; done).
  apply filter_In in Hin as [Hin Hf].
  split; [|done]. by apply list_elem_of_In, elem_of_map_to_list in Hin.
Qed.

Lemma find_posts_by_user_In u st id p :
  In (id, p) (find_posts_by_user u st) <-> posts st !! id = Some p /\ userId p = u.
Proof.
  unfold find_posts_by_user. rewrite filter_In, <- list_elem_of_In, elem_of_map_to_list.
  simpl. by rewrite Nat.eqb_eq.
Qed.

Lemma new_post_id_fresh st : posts st !! new_post_id st = None.
Proof. unfold new_post_id. apply not_elem_of_dom. apply (is_fresh (dom (posts st))). Qed.

Lemma new_user_id_fresh st : users st !! new_user_id st = None.
Proof. unfold new_user_id. apply not_elem_of_dom. apply (is_fresh (dom (users st))). Qed.

Lemma find_owned_post_other postId u st p :
  posts st !! postId = Some p -> userId p <> u -> find_owned_post postId u st = None.
Proof.
  intros Hp Hne. unfold find_owned_post. rewrite Hp.
  destruct (Nat.eqb_spec (userId p) u); [contradiction | done].
Qed.

Lemma find_owned_post_absent postId u st :
  posts st !! postId = None -> find_owned_post postId u st = None.
Proof. intros Hp. unfold find_owned_post. by rewrite Hp. Qed.

Lemma find_owned_post_own postId u st p :
  posts st !! postId = Some p -> userId p = u -> find_owned_post postId u st = Some p.
Proof.
  intros Hp Hu. unfold find_owned_post. rewrite Hp.
  by destruct (Nat.eqb_spec (userId p) u).
Qed.

(* Equality on a string operand is string equality. *)
Lemma query_cast_str s :
  query_cast (JStr s) = Some (fun f => field_eq f (FStr s)).
Proof. reflexivity. Qed.

Lemma field_eq_str f s : field_eq f (FStr s) = true <-> f = FStr s.
Proof.
  destruct f as [| | s']; simpl; split; try done.
  - by intros ->%String.eqb_eq.
  - intros [= ->]. apply String.eqb_refl.
Qed.

(* ===================================================================== *)
(* Guards (C3)                                                            *)
(* ===================================================================== *)

(* A session without a credential, or with one that fails verification,
   is turned away by both guards before any handler runs. *)
Lemma unverified_session_rejected (cfg : Config) (now_ms : Z) (st : Store)
    (session : option Token)
    (Hbad : session = None \/
            exists t e, session = Some t /\ jwt_verify (SECRET_KEY cfg) now_ms t = inl e) :
  (forall req, strict_route req = true ->
     exists m, app cfg now_ms req st session = (Json 401 (BMessage m), st, session)) /\
  app cfg now_ms GetIndex st session = (Redirect "/login", st, session).
Proof.
  assert (Hs : exists m, authenticateJWT (SECRET_KEY cfg) now_ms session
                         = Reject (Json 401 (BMessage m))).
  { destruct Hbad as [-> | (t & e & -> & He)]; simpl; [by eexists|].
    rewrite He. by eexists. }
  assert (Hr : requireAuth (SECRET_KEY cfg) now_ms session = Reject (Redirect "/login")).
  { destruct Hbad as [-> | (t & e & -> & He)]; simpl; [done|]. by rewrite He. }
  destruct Hs as [m Hm]. split.
  - intros [] Hreq; try discriminate; exists m; simpl; by apply with_strict_reject.
  - simpl. unfold with_redirect. by rewrite Hr.
Qed.

(** C3: when the session holds no credential, or one that fails
    verification, every route behind the strict guard answers 401 with a
    JSON message and leaves the store and the session as they were (its
    handler does not run), and the page route GET /index behind the
    redirecting guard answers a redirect to /login. *)
Theorem guards_reject_unverified (cfg : Config) (now_ms : Z) (st : Store)
    (session : option Token)
    (Hbad : session = None \/
            exists t e, session = Some t /\ jwt_verify (SECRET_KEY cfg) now_ms t = inl e) :
  (forall req, strict_route req = true ->
     exists m, app cfg now_ms req st session = (Json 401 (BMessage m), st, session)) /\
  app cfg now_ms GetIndex st session = (Redirect "/login", st, session).
Proof. exact (unverified_session_rejected cfg now_ms st session Hbad). Qed.

(* alice's credential, issued at second 1, has expired at second 5000. *)
Lemma guards_reject_unverified_witness :
  (exists t e, alice_session = Some t /\ jwt_verify "s3cret" 5000000 t = inl e) /\
  app cfg0 5000000 GetIndex store_ab alice_session = (Redirect "/login", store_ab, alice_session).
Proof.
  assert (H : exists t e, alice_session = Some t /\ jwt_verify "s3cret" 5000000 t = inl e)
    by (eexists _, _; split; reflexivity).
  split; [exact H|].
  exact (proj2 (guards_reject_unverified cfg0 5000000 store_ab alice_session (or_intror H))).
Defined.

(* ===================================================================== *)
(* Create (C6, C10)                                                       *)
(* ===================================================================== *)

(** C10: an authenticated POST /post whose text is the empty string is
    answered 400 "Please provide valid post content" and inserts nothing,
    although "" is a string. *)
Theorem create_rejects_empty_string (cfg : Config) (now_ms : Z) (st : Store)
    (session : option Token) (user : Payload)
    (Hauth : authenticateJWT (SECRET_KEY cfg) now_ms session = Pass user) :
  app cfg now_ms (PostPost (JStr "")) st session =
  (Json 400 (BMessage "Please provide valid post content"), st, session).
Proof. simpl. by rewrite (with_strict_pass _ _ _ _ _ _ Hauth). Qed.

Lemma create_rejects_empty_string_witness :
  authenticateJWT "s3cret" 2000 alice_session = Pass (mkPayload 1 (FStr "alice")) /\
  app cfg0 2000 (PostPost (JStr "")) store_ab alice_session =
  (Json 400 (BMessage "Please provide valid post content"), store_ab, alice_session).
Proof.
  assert (H : authenticateJWT "s3cret" 2000 alice_session = Pass (mkPayload 1 (FStr "alice")))
    by reflexivity.
  split; [exact H|]. exact (create_rejects_empty_string cfg0 2000 store_ab alice_session _ H).
Defined.

(** C6 (counterexample): the text "" is a string, yet alice's POST /post
    with it is answered 400 and the store is unchanged. *)
Lemma create_empty_string_not_inserted :
  js_is_string (JStr "") = true /\
  app cfg0 2000 (PostPost (JStr "")) store_ab alice_session =
  (Json 400 (BMessage "Please provide valid post content"), store_ab, alice_session).
Proof. split; reflexivity. Qed.

(** C6 (amended): an authenticated POST /post with a non-empty string text
    inserts, under a fresh _id, a post whose userId is the requester's
    decoded userId and whose text is that string, and answers 201 with
    it; when text is absent, not a string, or the empty string it answers
    400 and inserts nothing. *)
Theorem create_post_spec (cfg : Config) (now_ms : Z) (st : Store)
    (session : option Token) (user : Payload) (text_in : JsVal)
    (Hauth : authenticateJWT (SECRET_KEY cfg) now_ms session = Pass user) :
  (forall s, text_in = JStr s -> s <> "" ->
     exists id, posts st !! id = None /\
       app cfg now_ms (PostPost text_in) st session =
       (Json 201 (BCreated "Post created successfully" id (mkPost (p_userId user) (FStr s))),
        mkStore (users st) (<[id := mkPost (p_userId user) (FStr s)]> (posts st)), session)) /\
  ((forall s, text_in = JStr s -> s = "") ->
     app cfg now_ms (PostPost text_in) st session =
     (Json 400 (BMessage "Please provide valid post content"), st, session)).
Proof.
  simpl. rewrite (with_strict_pass _ _ _ _ _ _ Hauth). simpl. split.
  - intros s -> Hs. exists (new_post_id st). split; [apply new_post_id_fresh|].
    unfold create_post. simpl.
    destruct (String.eqb_spec s ""); [contradiction|]. reflexivity.
  - intros Hs. unfold create_post.
    destruct text_in as [| | b | z | s0 | |]; simpl; rewrite ?orb_true_r; try reflexivity.
    rewrite (Hs s0 eq_refl). reflexivity.
Qed.

Lemma create_post_spec_witness :
  authenticateJWT "s3cret" 2000 alice_session = Pass (mkPayload 1 (FStr "alice")) /\
  exists id, posts store_ab !! id = None /\
    app cfg0 2000 (PostPost (JStr "hello")) store_ab alice_session =
    (Json 201 (BCreated "Post created successfully" id (mkPost 1 (FStr "hello"))),
     mkStore (users store_ab) (<[id := mkPost 1 (FStr "hello")]> (posts store_ab)),
     alice_session).
Proof.
  assert (H : authenticateJWT "s3cret" 2000 alice_session = Pass (mkPayload 1 (FStr "alice")))
    by reflexivity.
  split; [exact H|].
  exact (proj1 (create_post_spec cfg0 2000 store_ab alice_session _ (JStr "hello") H)
           "hello" eq_refl ltac:(discriminate)).
Defined.

(* ===================================================================== *)
(* List (C2)                                                              *)
(* ===================================================================== *)

(** C2: an authenticated GET /posts answers 200 with exactly the stored
    posts whose userId is the requester's decoded userId. *)
Theorem list_posts_exactly_owned (cfg : Config) (now_ms : Z) (st : Store)
    (session : option Token) (user : Payload)
    (Hauth : authenticateJWT (SECRET_KEY cfg) now_ms session = Pass user) :
  exists ps, app cfg now_ms GetPosts st session = (Json 200 (BPosts ps), st, session) /\
    forall id p, In (id, p) ps <-> posts st !! id = Some p /\ userId p = p_userId user.
Proof.
  simpl. rewrite (with_strict_pass _ _ _ _ _ _ Hauth). simpl.
  eexists. split; [reflexivity|]. apply find_posts_by_user_In.
Qed.

Lemma list_posts_exactly_owned_witness :
  authenticateJWT "s3cret" 2000 bob_session = Pass (mkPayload 2 (FStr "bob")) /\
  exists ps, app cfg0 2000 GetPosts store_ab bob_session = (Json 200 (BPosts ps), store_ab, bob_session) /\
    forall id p, In (id, p) ps <-> posts store_ab !! id = Some p /\ userId p = 2.
Proof.
  assert (H : authenticateJWT "s3cret" 2000 bob_session = Pass (mkPayload 2 (FStr "bob")))
    by reflexivity.
  split; [exact H|]. exact (list_posts_exactly_owned cfg0 2000 store_ab bob_session _ H).
Defined.

(* ===================================================================== *)
(* Update and delete (C1, C9)                                             *)
(* ===================================================================== *)

Lemma authenticateJWT_reject_401 key now_ms session r :
  authenticateJWT key now_ms session = Reject r -> exists m, r = Json 401 (BMessage m).
Proof.
  destruct session as [t|]; simpl; [|intros [= <-]; by eexists].
  destruct (jwt_verify key now_ms t); [intros [= <-]; by eexists | done].
Qed.

(** C1 (counterexample): bob's PUT on alice's post 5 with an object as
    text is answered 500 (the String cast of the update fails before the
    query runs), not 404. *)
Lemma foreign_update_uncastable_text :
  posts store_ab !! 5 = Some (mkPost 1 (FStr "hi")) /\
  authenticateJWT "s3cret" 2000 bob_session = Pass (mkPayload 2 (FStr "bob")) /\
  app cfg0 2000 (PutPost 5 (JObj [])) store_ab bob_session =
  (internal_error, store_ab, bob_session).
Proof. split; [|split]; reflexivity. Qed.

(** C1 (amended): an authenticated DELETE, or PUT, of a post whose stored
    userId differs from the requester's decoded userId never succeeds and
    leaves the store unchanged: DELETE answers 404, PUT answers 404 unless
    its text cannot be cast to a String, in which case it answers 500; in
    both cases the response is the one given when no post with that id
    exists. *)
Theorem foreign_post_not_found (cfg : Config) (now_ms : Z) (st : Store)
    (session : option Token) (user : Payload) (postId : ObjectId) (p : Post)
    (text_in : JsVal)
    (Hauth : authenticateJWT (SECRET_KEY cfg) now_ms session = Pass user)
    (Hpost : posts st !! postId = Some p)
    (Hother : userId p <> p_userId user) :
  let st_absent := mkStore (users st) (delete postId (posts st)) in
  app cfg now_ms (DeletePost postId) st session =
    (Json 404 (BMessage "Post not found"), st, session) /\
  app cfg now_ms (PutPost postId text_in) st session =
    (match cast_text_update cfg text_in with
     | Some _ => Json 404 (BMessage "Post not found")
     | None => internal_error
     end, st, session) /\
  (app cfg now_ms (DeletePost postId) st_absent session).1.1 =
    (app cfg now_ms (DeletePost postId) st session).1.1 /\
  (app cfg now_ms (PutPost postId text_in) st_absent session).1.1 =
    (app cfg now_ms (PutPost postId text_in) st session).1.1.
Proof.
  intros st_absent. simpl. rewrite !(with_strict_pass _ _ _ _ _ _ Hauth). simpl.
  assert (Hown : find_owned_post postId (p_userId user) st = None)
    by (eapply find_owned_post_other; eauto).
  assert (Habs : find_owned_post postId (p_userId user) st_absent = None)
    by (apply find_owned_post_absent; simpl; apply lookup_delete_eq).
  unfold delete_post, update_post. rewrite Hown, Habs.
  destruct (cast_text_update cfg text_in); repeat split.
Qed.

Lemma foreign_post_not_found_witness :
  authenticateJWT "s3cret" 2000 bob_session = Pass (mkPayload 2 (FStr "bob")) /\
  posts store_ab !! 5 = Some (mkPost 1 (FStr "hi")) /\ 1 <> 2 /\
  app cfg0 2000 (DeletePost 5) store_ab bob_session =
    (Json 404 (BMessage "Post not found"), store_ab, bob_session).
Proof.
  assert (H1 : authenticateJWT "s3cret" 2000 bob_session = Pass (mkPayload 2 (FStr "bob")))
    by reflexivity.
  assert (H2 : posts store_ab !! 5 = Some (mkPost 1 (FStr "hi"))) by reflexivity.
  assert (H3 : 1 <> 2) by lia.
  split; [exact H1|]. split; [exact H2|]. split; [exact H3|].
  exact (proj1 (foreign_post_not_found cfg0 2000 store_ab bob_session _ 5 _ (JStr "x") H1 H2 H3)).
Defined.

(** C9 (counterexample): alice's PUT on her own post 5 with an object as
    text is answered 500, not 200. *)
Lemma own_update_uncastable_text :
  posts store_ab !! 5 = Some (mkPost 1 (FStr "hi")) /\
  authenticateJWT "s3cret" 2000 alice_session = Pass (mkPayload 1 (FStr "alice")) /\
  app cfg0 2000 (PutPost 5 (JObj [])) store_ab alice_session =
  (internal_error, store_ab, alice_session).
Proof. split; [|split]; reflexivity. Qed.

(** C9 (amended): PUT /posts/:postId never answers 400. For an
    authenticated PUT on a post owned by the requester, every text the
    String schema type casts is accepted without validation: absent,
    null, a boolean, a number, a string (also ""), or an object with a
    non-empty string _id. The answer is 200 and the stored text becomes
    the cast value (null for null, the _id for such an object; for an
    absent text, null or the old text, as the store layer treats
    undefined update fields). A text that cannot be cast (an array, or an
    object without a non-empty string _id) is answered 500 and changes
    nothing. *)
Theorem update_without_text_validation :
  (forall cfg now_ms st session postId text_in b,
     (app cfg now_ms (PutPost postId text_in) st session).1.1 <> Json 400 b) /\
  (forall cfg now_ms st session user postId p text_in,
     authenticateJWT (SECRET_KEY cfg) now_ms session = Pass user ->
     posts st !! postId = Some p -> userId p = p_userId user ->
     (forall c, castString text_in = Some c ->
        exists p', userId p' = userId p /\
          text p' = match text_in with
                    | JUndef => match undefined_update cfg with
                                | UndefSetsNull => FNull
                                | UndefStripped => text p
                                end
                    | _ => c
                    end /\
          app cfg now_ms (PutPost postId text_in) st session =
          (Json 200 (BUpdated "Post updated successfully" postId p'),
           mkStore (users st) (<[postId := p']> (posts st)), session)) /\
     (castString text_in = None ->
        app cfg now_ms (PutPost postId text_in) st session = (internal_error, st, session))).
Proof.
  split.
  - intros cfg now_ms st session postId text_in b. simpl.
    destruct (authenticateJWT (SECRET_KEY cfg) now_ms session) as [user|r] eqn:Ha.
    + rewrite (with_strict_pass _ _ _ _ _ _ Ha). simpl. unfold update_post.
      destruct (cast_text_update cfg text_in); [|done].
      destruct (find_owned_post postId (p_userId user) st); done.
    + rewrite (with_strict_reject _ _ _ _ _ _ Ha). simpl.
      destruct (authenticateJWT_reject_401 _ _ _ _ Ha) as [m ->]. done.
  - intros cfg now_ms st session user postId p text_in Hauth Hpost Huser. simpl.
    rewrite (with_strict_pass _ _ _ _ _ _ Hauth). simpl. unfold update_post.
    rewrite (find_owned_post_own _ _ _ _ Hpost Huser). split.
    + intros c Hc. unfold cast_text_update.
      destruct text_in;
        [destruct (undefined_update cfg)| | | | | |]; rewrite ?Hc; simpl;
        (eexists; split; [|split; [|reflexivity]]); done.
    + intros Hc. unfold cast_text_update.
      destruct text_in; try discriminate; rewrite Hc; reflexivity.
Qed.

Lemma update_without_text_validation_witness :
  authenticateJWT "s3cret" 2000 alice_session = Pass (mkPayload 1 (FStr "alice")) /\
  posts store_ab !! 5 = Some (mkPost 1 (FStr "hi")) /\
  castString (JObj [("_id", JStr "zz")]) = Some (FStr "zz") /\
  exists p', userId p' = 1 /\ text p' = FStr "zz" /\
    app cfg0 2000 (PutPost 5 (JObj [("_id", JStr "zz")])) store_ab alice_session =
    (Json 200 (BUpdated "Post updated successfully" 5 p'),
     mkStore (users store_ab) (<[5 := p']> (posts store_ab)), alice_session).
Proof.
  assert (H1 : authenticateJWT "s3cret" 2000 alice_session = Pass (mkPayload 1 (FStr "alice")))
    by reflexivity.
  assert (H2 : posts store_ab !! 5 = Some (mkPost 1 (FStr "hi"))) by reflexivity.
  assert (H3 : castString (JObj [("_id", JStr "zz")]) = Some (FStr "zz")) by reflexivity.
  split; [exact H1|]. split; [exact H2|]. split; [exact H3|].
  exact (proj1 (proj2 update_without_text_validation cfg0 2000%Z store_ab alice_session _ 5 _
                  (JObj [("_id", JStr "zz")]) H1 H2 eq_refl) _ H3).
Defined.

(* ===================================================================== *)
(* Registration and login (C4, C5, C7)                                    *)
(* ===================================================================== *)

Lemma register_conflict_str cfg now_ms st session u e pw id usr :
  users st !! id = Some usr -> username usr = FStr u \/ email usr = FStr e ->
  register cfg now_ms (JStr u) (JStr e) (JStr pw) st session =
  (Json 400 (BMessage "User already exists"), st, session).
Proof.
  intros Hid Hsame. unfold register. rewrite !query_cast_str.
  destruct (find_user _ st) as [iu|] eqn:Hf; [done|].
  apply find_user_None with (id := id) (usr := usr) in Hf; [|done].
  apply orb_false_iff in Hf as [Hu He].
  destruct Hsame as [Hs|Hs].
  - rewrite Hs in Hu. simpl in Hu. by rewrite String.eqb_refl in Hu.
  - rewrite Hs in He. simpl in He. by rewrite String.eqb_refl in He.
Qed.

Lemma register_new_str cfg now_ms st session u e pw :
  (forall id usr, users st !! id = Some usr -> username usr <> FStr u /\ email usr <> FStr e) ->
  register cfg now_ms (JStr u) (JStr e) (JStr pw) st session =
  (Redirect ("/index?username=" ++ u),
   mkStore (<[new_user_id st := mkUser (FStr u) (FStr e) (FStr pw)]> (users st)) (posts st),
   Some (jwt_sign (SECRET_KEY cfg) now_ms (mkPayload (new_user_id st) (FStr u)))).
Proof.
  intros Hfresh. unfold register. rewrite !query_cast_str.
  assert (Hnone : find_user (fun usr => field_eq (username usr) (FStr u)
                                        || field_eq (email usr) (FStr e)) st = None).
  { apply find_user_None. intros id usr Hid.
    destruct (Hfresh id usr Hid) as [Hu He]. apply orb_false_iff. split.
    - destruct (field_eq (username usr) (FStr u)) eqn:H; [|done].
      by apply field_eq_str in H.
    - destruct (field_eq (email usr) (FStr e)) eqn:H; [|done].
      by apply field_eq_str in H. }
  rewrite Hnone. reflexivity.
Qed.

(** For string inputs, POST /register answers 400 "User already
    exists", storing nothing and leaving the session's credential as it
    was, when a stored user has the same username or the same email;
    otherwise it stores the record verbatim (the password as given, not
    hashed) under a fresh _id, puts a new credential for that user in the
    session and redirects to /index. *)
Theorem register_conflict_or_store (cfg : Config) (now_ms : Z) (st : Store)
    (session : option Token) (u e pw : string) :
  ((exists id usr, users st !! id = Some usr /\ (username usr = FStr u \/ email usr = FStr e)) ->
     app cfg now_ms (PostRegister (JStr u) (JStr e) (JStr pw)) st session =
     (Json 400 (BMessage "User already exists"), st, session)) /\
  ((forall id usr, users st !! id = Some usr -> username usr <> FStr u /\ email usr <> FStr e) ->
     exists id, users st !! id = None /\
       app cfg now_ms (PostRegister (JStr u) (JStr e) (JStr pw)) st session =
       (Redirect ("/index?username=" ++ u),
        mkStore (<[id := mkUser (FStr u) (FStr e) (FStr pw)]> (users st)) (posts st),
        Some (jwt_sign (SECRET_KEY cfg) now_ms (mkPayload id (FStr u))))).
Proof.
  split.
  - intros (id & usr & Hid & Hsame). simpl. by eapply register_conflict_str.
  - intros Hfresh. exists (new_user_id st). split; [apply new_user_id_fresh|].
    simpl. by apply register_new_str.
Qed.

(* A second registration of alice (other email) is refused; bob is stored. *)
Lemma register_conflict_or_store_witness :
  (exists id usr, users store_ab !! id = Some usr /\
     (username usr = FStr "alice" \/ email usr = FStr "other@x.com")) /\
  app cfg0 2000 (PostRegister (JStr "alice") (JStr "other@x.com") (JStr "pw2")) store_ab None =
  (Json 400 (BMessage "User already exists"), store_ab, None).
Proof.
  assert (H : exists id usr, users store_ab !! id = Some usr /\
     (username usr = FStr "alice" \/ email usr = FStr "other@x.com")).
  { exists 1, alice. split; [reflexivity | left; reflexivity]. }
  split; [exact H|].
  exact (proj1 (register_conflict_or_store cfg0 2000 store_ab None "alice" "other@x.com" "pw2") H).
Defined.

(** C4 (code bug): the body fields are passed to User.findOne({ $or:
    [{ username }, { email }] }) unsanitised. A username given as the
    query operator object {"$ne": null} (not a string, so equal to no
    stored username) with an email no stored user has is refused as
    "User already exists" and nothing is stored, because the operator
    matches alice. A username alice already has, with the email given as
    the plain object {}, is answered 500 instead of 400, because {} cannot
    be cast to a String. *)
Lemma register_operator_injection :
  users store_ab !! 1 = Some alice /\
  (forall id usr, users store_ab !! id = Some usr ->
     username usr = FStr "alice" /\ email usr <> FStr "new@x.com") /\
  js_is_string (JObj [("$ne", JNull)]) = false /\
  app cfg0 2000 (PostRegister (JObj [("$ne", JNull)]) (JStr "new@x.com") (JStr "pw2"))
    store_ab None =
  (Json 400 (BMessage "User already exists"), store_ab, None) /\
  app cfg0 2000 (PostRegister (JStr "alice") (JObj []) (JStr "pw2")) store_ab None =
  (internal_error, store_ab, None).
Proof.
  split; [reflexivity|]. split; [|repeat split; reflexivity].
  intros id usr Hid. simpl in Hid.
  apply lookup_singleton_Some in Hid as [_ <-]. split; [reflexivity | discriminate].
Qed.

(** C5 (code bug): the body fields are passed to User.findOne unsanitised,
    so a password given as the query operator object {"$ne": ""} logs in
    as alice without her password: the login succeeds although no stored
    user has that password (the submitted value is not even a string),
    while the wrong password as a string is refused. *)
Lemma login_operator_injection :
  users store_ab !! 1 = Some alice /\ password alice = FStr "pw" /\
  js_is_string (JObj [("$ne", JStr "")]) = false /\
  app cfg0 2000 (PostLogin (JStr "alice") (JObj [("$ne", JStr "")])) store_ab None =
  (Redirect "/index?username=alice", store_ab,
   Some (jwt_sign "s3cret" 2000 (mkPayload 1 (FStr "alice")))) /\
  app cfg0 2000 (PostLogin (JStr "alice") (JStr "guess")) store_ab None =
  (Json 401 (BMessage "Invalid credentials"), store_ab, None).
Proof. repeat split; reflexivity. Qed.

(** C7: when no stored user has the username or the email, registering
    with string username, email and password succeeds (a redirect and a
    new credential in the session), and a following login with the same
    username and password against the resulting store succeeds as the
    user just registered. *)
Theorem register_then_login (cfg : Config) (now1 now2 : Z) (st : Store)
    (session : option Token) (u e pw : string)
    (Hfresh : forall id usr, users st !! id = Some usr ->
              username usr <> FStr u /\ email usr <> FStr e) :
  exists id st1 t1,
    app cfg now1 (PostRegister (JStr u) (JStr e) (JStr pw)) st session =
      (Redirect ("/index?username=" ++ u), st1, Some t1) /\
    app cfg now2 (PostLogin (JStr u) (JStr pw)) st1 (Some t1) =
      (Redirect ("/index?username=" ++ u), st1,
       Some (jwt_sign (SECRET_KEY cfg) now2 (mkPayload id (FStr u)))).
Proof.
  set (id := new_user_id st).
  set (newUser := mkUser (FStr u) (FStr e) (FStr pw)).
  set (st1 := mkStore (<[id := newUser]> (users st)) (posts st)).
  exists id, st1, (jwt_sign (SECRET_KEY cfg) now1 (mkPayload id (FStr u))).
  split; [simpl; by apply register_new_str|].
  simpl. unfold login. rewrite !query_cast_str.
  set (f := fun usr => field_eq (username usr) (FStr u) && field_eq (password usr) (FStr pw)).
  assert (Hfound : find_user f st1 = Some (id, newUser)).
  { destruct (find_user f st1) as [[id' usr']|] eqn:Hf.
    - apply find_user_Some in Hf as [Hl Hm].
      apply andb_true_iff in Hm as [Hu _]. apply field_eq_str in Hu.
      simpl in Hl. destruct (decide (id = id')) as [<-|Hne].
      + rewrite lookup_insert_eq in Hl. by injection Hl as <-.
      + rewrite lookup_insert_ne in Hl by done.
        destruct (Hfresh id' usr' Hl) as [Hu' _]. contradiction.
    - exfalso. apply (proj1 (find_user_None f st1)) with (id := id) (usr := newUser) in Hf.
      + unfold f in Hf. simpl in Hf. by rewrite !String.eqb_refl in Hf.
      + simpl. apply lookup_insert_eq. }
  rewrite Hfound. reflexivity.
Qed.

Lemma register_then_login_witness :
  (forall id usr, users store_ab !! id = Some usr ->
     username usr <> FStr "bob" /\ email usr <> FStr "b@x.com") /\
  exists id st1 t1,
    app cfg0 1000 (PostRegister (JStr "bob") (JStr "b@x.com") (JStr "pw")) store_ab None =
      (Redirect ("/index?username=" ++ "bob"), st1, Some t1) /\
    app cfg0 2000 (PostLogin (JStr "bob") (JStr "pw")) st1 (Some t1) =
      (Redirect ("/index?username=" ++ "bob"), st1,
       Some (jwt_sign "s3cret" 2000 (mkPayload id (FStr "bob")))).
Proof.
  assert (H : forall id usr, users store_ab !! id = Some usr ->
     username usr <> FStr "bob" /\ email usr <> FStr "b@x.com").
  { intros id usr Hid. simpl in Hid.
    destruct (decide (id = 1)) as [->|Hne].
    - rewrite lookup_singleton_eq in Hid. injection Hid as <-. split; discriminate.
    - rewrite lookup_singleton_ne in Hid by done. discriminate. }
  split; [exact H|].
  exact (register_then_login cfg0 1000 2000 store_ab None "bob" "b@x.com" "pw" H).
Defined.

(* ===================================================================== *)
(* Credential lifetime (C8)                                               *)
(* ===================================================================== *)

Lemma with_strict_session cfg now_ms session st h :
  (with_strict cfg now_ms session st h).2 = session.
Proof.
  unfold with_strict. destruct (authenticateJWT _ _ _); [|done]. by destruct (h _).
Qed.

Lemma with_redirect_session cfg now_ms session st h :
  (with_redirect cfg now_ms session st h).2 = session.
Proof. unfold with_redirect. by destruct (requireAuth _ _ _). Qed.

(* What a request leaves in the session: the old credential, nothing after
   a logout, or a credential freshly signed by register or login. *)
Lemma app_session_cases cfg now_ms req st session :
  (app cfg now_ms req st session).2 = session \/
  (req = GetLogout /\ (app cfg now_ms req st session).2 = None) \/
  (issues_credential req = true /\
   exists p, (app cfg now_ms req st session).2 = Some (jwt_sign (SECRET_KEY cfg) now_ms p)).
Proof.
  destruct req; simpl;
    try (left; first [reflexivity | apply with_strict_session | apply with_redirect_session]).
  - unfold register. repeat case_match; simplify_eq/=; try (left; reflexivity).
    right; right. split; [done|]. by eexists.
  - unfold login. repeat case_match; simplify_eq/=; try (left; reflexivity).
    right; right. split; [done|]. by eexists.
  - right; left. done.
Qed.

(* A credential signed at t0 fails verification once more than an hour
   (3600000 ms) has passed, whatever key signed it. *)
Lemma jwt_verify_after_one_hour (key key' : string) (t0 now_ms : Z) (p : Payload) :
  (t0 + 3600000 < now_ms)%Z -> exists e, jwt_verify key now_ms (jwt_sign key' t0 p) = inl e.
Proof.
  intros Hlt. unfold jwt_verify, jwt_sign. simpl.
  destruct (String.eqb key' key); simpl; [|by eexists].
  assert (Hle : (t0 `div` 1000 + 3600 <= now_ms `div` 1000)%Z).
  { replace (t0 `div` 1000 + 3600)%Z with ((t0 + 3600 * 1000) `div` 1000)%Z
      by (rewrite Z.div_add; lia).
    apply Z.div_le_mono; lia. }
  apply Z.leb_le in Hle. rewrite Hle. by eexists.
Qed.

(** C8: a credential is written to the session only by registration and
    login, and every one issued carries iat = the issuing second and
    exp = iat + 3600, one hour later; no other request refreshes it (it
    stays as it was, or is dropped by logout); and once more than an hour
    has passed since a credential was signed, every request behind the
    strict guard presenting it is answered 401 and the page route behind
    the redirecting guard redirects to /login, the store unchanged. *)
Theorem credential_one_hour (cfg : Config) (now_ms : Z) (req : Request) (st : Store)
    (session : option Token) :
  (forall t, (app cfg now_ms req st session).2 = Some t -> session <> Some t ->
     issues_credential req = true /\
     tok_iat t = (now_ms `div` 1000)%Z /\ tok_exp t = (tok_iat t + 3600)%Z) /\
  (issues_credential req = false ->
     (app cfg now_ms req st session).2 = session \/
     (app cfg now_ms req st session).2 = None) /\
  (forall key t0 p, session = Some (jwt_sign key t0 p) -> (t0 + 3600000 < now_ms)%Z ->
     (strict_route req = true ->
        exists m, (app cfg now_ms req st session).1 = (Json 401 (BMessage m), st)) /\
     (req = GetIndex -> (app cfg now_ms req st session).1 = (Redirect "/login", st))).
Proof.
  destruct (app_session_cases cfg now_ms req st session)
    as [Hs | [[Hreq Hs] | [Hiss [p Hs]]]].
  - split; [intros t Ht Hne; congruence|]. split; [by left|].
    intros key t0 p -> Hold.
    destruct (jwt_verify_after_one_hour (SECRET_KEY cfg) key t0 now_ms p Hold) as [e He].
    destruct (unverified_session_rejected cfg now_ms st (Some (jwt_sign key t0 p)))
      as [Hstrict Hindex]; [right; by eexists _, _|].
    split.
    + intros Hr. destruct (Hstrict req Hr) as [m ->]. by exists m.
    + intros ->. by rewrite Hindex.
  - subst req. split; [intros t Ht; congruence|]. split; [by right|].
    intros key t0 p' _ _. split; [done | discriminate].
  - split.
    + intros t Ht _. rewrite Hs in Ht. injection Ht as <-. simpl. done.
    + split; [congruence|]. intros key t0 p' _ _.
      destruct req; try discriminate; split; done.
Qed.

(* alice's credential was signed at second 1; at second 5000 GET /posts
   presenting it is refused. *)
Lemma credential_one_hour_witness :
  alice_session = Some (jwt_sign "s3cret" 1000 (mkPayload 1 (FStr "alice"))) /\
  (1000 + 3600000 < 5000000)%Z /\
  exists m, (app cfg0 5000000 GetPosts store_ab alice_session).1 = (Json 401 (BMessage m), store_ab).
Proof.
  assert (H1 : alice_session = Some (jwt_sign "s3cret" 1000 (mkPayload 1 (FStr "alice"))))
    by reflexivity.
  assert (H2 : (1000 + 3600000 < 5000000)%Z) by lia.
  split; [exact H1|]. split; [exact H2|].
  exact (proj1 (proj2 (proj2 (credential_one_hour cfg0 5000000 GetPosts store_ab alice_session))
                  "s3cret" 1000%Z _ H1 H2) eq_refl).
Defined.

(* ===================================================================== *)
(* Further properties of the routes                                       *)
(* ===================================================================== *)

(** GET /logout drops the session's credential and redirects to /login
    without touching the store; afterwards every route behind the strict
    guard answers 401 "Unauthorized" and GET /index redirects to /login. *)
Theorem logout_then_guarded (cfg : Config) (now1 now2 : Z) (req : Request) (st : Store)
    (session : option Token) :
  app cfg now1 GetLogout st session = (Redirect "/login", st, None) /\
  (strict_route req = true ->
     app cfg now2 req st None = (Json 401 (BMessage "Unauthorized"), st, None)) /\
  app cfg now2 GetIndex st None = (Redirect "/login", st, None).
Proof.
  split; [reflexivity|]. split; [|reflexivity].
  destruct req; intros H; try discriminate; reflexivity.
Qed.

Lemma logout_then_guarded_witness :
  strict_route GetPosts = true /\
  app cfg0 2000 GetPosts store_ab None = (Json 401 (BMessage "Unauthorized"), store_ab, None).
Proof.
  assert (H : strict_route GetPosts = true) by reflexivity.
  split; [exact H|].
  exact (proj1 (proj2 (logout_then_guarded cfg0 1000 2000 GetPosts store_ab alice_session)) H).
Defined.

(** A credential signed with the server key passes both guards, which
    hand the signed payload to the handler, exactly while the current
    second is below the issuing second plus 3600; a credential signed
    with another key is refused by the strict guard with 401 "Invalid
    token". *)
Theorem credential_accepted_within_hour (key key' : string) (iss_ms now_ms : Z) (p : Payload) :
  (authenticateJWT key now_ms (Some (jwt_sign key iss_ms p)) = Pass p <->
     (now_ms `div` 1000 < iss_ms `div` 1000 + 3600)%Z) /\
  (requireAuth key now_ms (Some (jwt_sign key iss_ms p)) = Pass p <->
     (now_ms `div` 1000 < iss_ms `div` 1000 + 3600)%Z) /\
  (key' <> key ->
     authenticateJWT key now_ms (Some (jwt_sign key' iss_ms p)) =
     Reject (Json 401 (BMessage "Invalid token"))).
Proof.
  unfold authenticateJWT, requireAuth, jwt_verify, jwt_sign. simpl.
  rewrite String.eqb_refl. simpl.
  destruct (Z.leb_spec (iss_ms `div` 1000 + 3600) (now_ms `div` 1000)).
  - simpl. split; [|split]; [split; [discriminate | intros; lia] |
                              split; [discriminate | intros; lia] |].
    intros Hne. by rewrite (proj2 (String.eqb_neq key' key) Hne).
  - simpl. split; [|split]; [split; [done | done] | split; [done | done] |].
    intros Hne. by rewrite (proj2 (String.eqb_neq key' key) Hne).
Qed.

Lemma credential_accepted_within_hour_witness :
  "other" <> "s3cret" /\
  authenticateJWT "s3cret" 2000 (Some (jwt_sign "other" 1000 (mkPayload 1 (FStr "alice")))) =
  Reject (Json 401 (BMessage "Invalid token")).
Proof.
  assert (H : "other" <> "s3cret") by discriminate.
  split; [exact H|].
  exact (proj2 (proj2 (credential_accepted_within_hour "s3cret" "other" 1000 2000
                         (mkPayload 1 (FStr "alice")))) H).
Defined.

(** Registering a new user and then, within the hour, requesting the
    page GET /index with the session the registration filled serves the
    page: the credential put in the session passes the redirecting
    guard. *)
Theorem register_then_index (cfg : Config) (now1 now2 : Z) (st : Store)
    (session : option Token) (u e pw : string)
    (Hfresh : forall id usr, users st !! id = Some usr ->
              username usr <> FStr u /\ email usr <> FStr e)
    (Hwithin : (now2 `div` 1000 < now1 `div` 1000 + 3600)%Z) :
  exists st1 t1,
    app cfg now1 (PostRegister (JStr u) (JStr e) (JStr pw)) st session =
      (Redirect ("/index?username=" ++ u), st1, Some t1) /\
    app cfg now2 GetIndex st1 (Some t1) = (SendFile "public/index.html", st1, Some t1).
Proof.
  eexists _, _. split; [simpl; by apply register_new_str|].
  simpl. unfold with_redirect, requireAuth, jwt_verify, jwt_sign. simpl.
  rewrite String.eqb_refl. simpl.
  destruct (Z.leb_spec (now1 `div` 1000 + 3600) (now2 `div` 1000)); [lia | done].
Qed.

Lemma register_then_index_witness :
  (forall id usr, users empty_store !! id = Some usr ->
     username usr <> FStr "bob" /\ email usr <> FStr "b@x.com") /\
  (2000 `div` 1000 < 1000 `div` 1000 + 3600)%Z /\
  exists st1 t1,
    app cfg0 1000 (PostRegister (JStr "bob") (JStr "b@x.com") (JStr "pw")) empty_store None =
      (Redirect ("/index?username=" ++ "bob"), st1, Some t1) /\
    app cfg0 2000 GetIndex st1 (Some t1) = (SendFile "public/index.html", st1, Some t1).
Proof.
  assert (H1 : forall id usr, users empty_store !! id = Some usr ->
     username usr <> FStr "bob" /\ email usr <> FStr "b@x.com")
    by (intros id usr Hid; simpl in Hid; by rewrite lookup_empty in Hid).
  assert (H2 : (2000 `div` 1000 < 1000 `div` 1000 + 3600)%Z) by (vm_compute; reflexivity).
  split; [exact H1|]. split; [exact H2|].
  exact (register_then_index cfg0 1000 2000 empty_store None "bob" "b@x.com" "pw" H1 H2).
Defined.

(** POST /login with a string username and password never changes the
    store. When a stored user has exactly that username and password it
    redirects to /index?username=<username> and puts in the session a
    credential for such a user; when none has, it answers 401 "Invalid
    credentials" and leaves the session as it was. *)
Theorem login_strings_exact (cfg : Config) (now_ms : Z) (st : Store)
    (session : option Token) (u pw : string) :
  (app cfg now_ms (PostLogin (JStr u) (JStr pw)) st session).1.2 = st /\
  ((exists id usr, users st !! id = Some usr /\ username usr = FStr u /\ password usr = FStr pw) ->
     exists id usr, users st !! id = Some usr /\ username usr = FStr u /\ password usr = FStr pw /\
       app cfg now_ms (PostLogin (JStr u) (JStr pw)) st session =
       (Redirect ("/index?username=" ++ u), st,
        Some (jwt_sign (SECRET_KEY cfg) now_ms (mkPayload id (FStr u))))) /\
  ((forall id usr, users st !! id = Some usr -> username usr <> FStr u \/ password usr <> FStr pw) ->
     app cfg now_ms (PostLogin (JStr u) (JStr pw)) st session =
     (Json 401 (BMessage "Invalid credentials"), st, session)).
Proof.
  simpl. unfold login. rewrite !query_cast_str.
  set (f := fun usr => field_eq (username usr) (FStr u) && field_eq (password usr) (FStr pw)).
  destruct (find_user f st) as [[id usr]|] eqn:Hf.
  - apply find_user_Some in Hf as [Hl Hm].
    unfold f in Hm. apply andb_true_iff in Hm as [Hu Hp].
    apply field_eq_str in Hu, Hp.
    split; [done|]. split.
    + intros _. exists id, usr. rewrite Hu. done.
    + intros Hnone. destruct (Hnone id usr Hl); contradiction.
  - split; [done|]. split; [|done].
    intros (id & usr & Hl & Hu & Hp).
    apply (proj1 (find_user_None f st)) with (id := id) (usr := usr) in Hf; [|done].
    unfold f in Hf. rewrite Hu, Hp in Hf. simpl in Hf.
    by rewrite !String.eqb_refl in Hf.
Qed.

Lemma login_strings_exact_witness :
  (exists id usr, users store_ab !! id = Some usr /\ username usr = FStr "alice" /\
     password usr = FStr "pw") /\
  exists id usr, users store_ab !! id = Some usr /\ username usr = FStr "alice" /\
    password usr = FStr "pw" /\
    app cfg0 2000 (PostLogin (JStr "alice") (JStr "pw")) store_ab None =
    (Redirect ("/index?username=" ++ "alice"), store_ab,
     Some (jwt_sign "s3cret" 2000 (mkPayload id (FStr "alice")))).
Proof.
  assert (H : exists id usr, users store_ab !! id = Some usr /\ username usr = FStr "alice" /\
     password usr = FStr "pw") by (exists 1, alice; repeat split).
  split; [exact H|].
  exact (proj1 (proj2 (login_strings_exact cfg0 2000 store_ab None "alice" "pw")) H).
Defined.

(** An authenticated DELETE of one of the requester's own posts answers
    200 with the deleted post, removes exactly that post (the users and
    every other post stay as they were) and keeps the session; deleting
    the same id again answers 404. *)
Theorem owner_delete_removes (cfg : Config) (now_ms : Z) (st : Store)
    (session : option Token) (user : Payload) (postId : ObjectId) (p : Post)
    (Hauth : authenticateJWT (SECRET_KEY cfg) now_ms session = Pass user)
    (Hpost : posts st !! postId = Some p)
    (Hown : userId p = p_userId user) :
  let st' := mkStore (users st) (delete postId (posts st)) in
  app cfg now_ms (DeletePost postId) st session =
    (Json 200 (BDeleted "Post deleted successfully" postId p), st', session) /\
  posts st' !! postId = None /\
  (forall id, id <> postId -> posts st' !! id = posts st !! id) /\
  app cfg now_ms (DeletePost postId) st' session =
    (Json 404 (BMessage "Post not found"), st', session).
Proof.
  intros st'. simpl. rewrite !(with_strict_pass _ _ _ _ _ _ Hauth). simpl.
  unfold delete_post. rewrite (find_owned_post_own _ _ _ _ Hpost Hown).
  rewrite (find_owned_post_absent postId (p_userId user) st')
    by (simpl; apply lookup_delete_eq).
  split; [reflexivity|]. split; [apply lookup_delete_eq|]. split; [|reflexivity].
  intros id Hne. simpl. by apply lookup_delete_ne.
Qed.

Lemma owner_delete_removes_witness :
  authenticateJWT "s3cret" 2000 alice_session = Pass (mkPayload 1 (FStr "alice")) /\
  posts store_ab !! 5 = Some (mkPost 1 (FStr "hi")) /\
  app cfg0 2000 (DeletePost 5) store_ab alice_session =
    (Json 200 (BDeleted "Post deleted successfully" 5 (mkPost 1 (FStr "hi"))),
     mkStore (users store_ab) (delete 5 (posts store_ab)), alice_session).
Proof.
  assert (H1 : authenticateJWT "s3cret" 2000 alice_session = Pass (mkPayload 1 (FStr "alice")))
    by reflexivity.
  assert (H2 : posts store_ab !! 5 = Some (mkPost 1 (FStr "hi"))) by reflexivity.
  split; [exact H1|]. split; [exact H2|].
  exact (proj1 (owner_delete_removes cfg0 2000%Z store_ab alice_session _ 5 _ H1 H2 eq_refl)).
Defined.

Lemma find_owned_post_Some postId u st q :
  find_owned_post postId u st = Some q -> posts st !! postId = Some q /\ userId q = u.
Proof.
  unfold find_owned_post. destruct (posts st !! postId) as [p|]; [|done].
  destruct (Nat.eqb_spec (userId p) u); [|done]. by intros [= <-].
Qed.

Lemma with_redirect_store cfg now_ms session st h :
  (with_redirect cfg now_ms session st h).1.2 = st.
Proof. unfold with_redirect. by destruct (requireAuth _ _ _). Qed.

(** No request changes or removes a post that does not belong to the
    userId its credential decodes to; a request without a verified
    credential changes no post at all. *)
Theorem foreign_posts_untouched (cfg : Config) (now_ms : Z) (req : Request) (st : Store)
    (session : option Token) (id : ObjectId) (p : Post)
    (Hp : posts st !! id = Some p)
    (Hnot : caller_id cfg now_ms session <> Some (userId p)) :
  posts (app cfg now_ms req st session).1.2 !! id = Some p.
Proof.
  unfold caller_id in Hnot.
  destruct req; simpl;
    try done;
    try (rewrite with_redirect_store; done);
    try (unfold register; repeat case_match; simplify_eq/=; done);
    try (unfold login; repeat case_match; simplify_eq/=; done).
  all: destruct (authenticateJWT (SECRET_KEY cfg) now_ms session) as [user|r] eqn:Ha;
    [rewrite (with_strict_pass _ _ _ _ _ _ Ha) | rewrite (with_strict_reject _ _ _ _ _ _ Ha); done];
    simpl.
  - unfold create_post. repeat case_match; simpl; try done.
    rewrite lookup_insert_ne; [done|].
    intros Heq. pose proof (new_post_id_fresh st) as Hf. rewrite Heq in Hf. congruence.
  - done.
  - unfold update_post. destruct (cast_text_update cfg text_in); [|done].
    destruct (find_owned_post postId (p_userId user) st) as [q|] eqn:Hf; [|done].
    apply find_owned_post_Some in Hf as [Hq Hu]. simpl.
    rewrite lookup_insert_ne; [done|].
    intros ->. rewrite Hp in Hq. injection Hq as ->. congruence.
  - unfold delete_post.
    destruct (find_owned_post postId (p_userId user) st) as [q|] eqn:Hf; [|done].
    apply find_owned_post_Some in Hf as [Hq Hu]. simpl.
    rewrite lookup_delete_ne; [done|].
    intros ->. rewrite Hp in Hq. injection Hq as ->. congruence.
Qed.

(* bob cannot delete alice's post 5. *)
Lemma foreign_posts_untouched_witness :
  posts store_ab !! 5 = Some (mkPost 1 (FStr "hi")) /\
  caller_id cfg0 2000 bob_session <> Some 1 /\
  posts (app cfg0 2000 (DeletePost 5) store_ab bob_session).1.2 !! 5 = Some (mkPost 1 (FStr "hi")).
Proof.
  assert (H1 : posts store_ab !! 5 = Some (mkPost 1 (FStr "hi"))) by reflexivity.
  assert (H2 : caller_id cfg0 2000 bob_session <> Some 1) by (vm_compute; discriminate).
  split; [exact H1|]. split; [exact H2|].
  exact (foreign_posts_untouched cfg0 2000 (DeletePost 5) store_ab bob_session 5 _ H1 H2).
Defined.

Lemma app_users_non_register cfg now_ms req st session :
  (forall u e p, req <> PostRegister u e p) ->
  users (app cfg now_ms req st session).1.2 = users st.
Proof.
  intros Hreq. destruct req; simpl; try done;
    try (rewrite with_redirect_store; done);
    try (unfold login; repeat case_match; simplify_eq/=; done);
    try (exfalso; by eapply Hreq).
  all: destruct (authenticateJWT (SECRET_KEY cfg) now_ms session) as [user|r] eqn:Ha;
    [rewrite (with_strict_pass _ _ _ _ _ _ Ha) | rewrite (with_strict_reject _ _ _ _ _ _ Ha); done];
    simpl.
  - unfold create_post. by repeat case_match.
  - done.
  - unfold update_post. by repeat case_match.
  - unfold delete_post. by repeat case_match.
Qed.

(** No request changes or removes a stored user; only POST /register
    changes the User collection at all, and it only adds. *)
Theorem users_never_removed (cfg : Config) (now_ms : Z) (req : Request) (st : Store)
    (session : option Token) :
  (forall id usr, users st !! id = Some usr ->
     users (app cfg now_ms req st session).1.2 !! id = Some usr) /\
  ((forall u e p, req <> PostRegister u e p) ->
     users (app cfg now_ms req st session).1.2 = users st).
Proof.
  split; [|apply app_users_non_register].
  intros id usr Hid.
  destruct req as [| | | | | | | | u e p | |];
    try (rewrite app_users_non_register; [done | intros ???; discriminate]).
  simpl. unfold register. repeat case_match; simplify_eq/=; try done.
  rewrite lookup_insert_ne; [done|].
  intros Heq. pose proof (new_user_id_fresh st) as Hf. rewrite Heq in Hf. congruence.
Qed.

Lemma users_never_removed_witness :
  users (app cfg0 2000 (PostRegister (JStr "bob") (JStr "b@x.com") (JStr "pw2")) store_ab None).1.2 !! 1
    = Some alice.
Proof.
  exact (proj1 (users_never_removed cfg0 2000
    (PostRegister (JStr "bob") (JStr "b@x.com") (JStr "pw2")) store_ab None) 1 alice eq_refl).
Defined.

(** Every response with a status of 400 or more (400, 401, 404, 500)
    leaves both the store and the session's credential as they were:
    failures have no side effect. *)
Theorem error_responses_change_nothing (cfg : Config) (now_ms : Z) (req : Request)
    (st : Store) (session : option Token) (status : Z) (b : Body)
    (Hr : (app cfg now_ms req st session).1.1 = Json status b)
    (Hs : (400 <= status)%Z) :
  (app cfg now_ms req st session).1.2 = st /\ (app cfg now_ms req st session).2 = session.
Proof.
  revert Hr. destruct req; simpl;
    try (intros; split; done);
    try (intros _; rewrite with_redirect_store, with_redirect_session; done);
    try (intros H; unfold register in *; repeat case_match; simplify_eq/=; done);
    try (intros H; unfold login in *; repeat case_match; simplify_eq/=; done).
  all: destruct (authenticateJWT (SECRET_KEY cfg) now_ms session) as [user|r] eqn:Ha;
    [rewrite (with_strict_pass _ _ _ _ _ _ Ha) | rewrite (with_strict_reject _ _ _ _ _ _ Ha); done];
    simpl; intros H.
  - unfold create_post in *. repeat case_match; simplify_eq/=; try lia; done.
  - simplify_eq/=. lia.
  - unfold update_post in *. repeat case_match; simplify_eq/=; try lia; done.
  - unfold delete_post in *. repeat case_match; simplify_eq/=; try lia; done.
Qed.

Lemma error_responses_change_nothing_witness :
  (app cfg0 2000 (PutPost 5 (JStr "x")) store_ab bob_session).1.1 =
    Json 404 (BMessage "Post not found") /\
  (400 <= 404)%Z /\
  (app cfg0 2000 (PutPost 5 (JStr "x")) store_ab bob_session).1.2 = store_ab.
Proof.
  assert (H1 : (app cfg0 2000 (PutPost 5 (JStr "x")) store_ab bob_session).1.1 =
                 Json 404 (BMessage "Post not found")) by reflexivity.
  assert (H2 : (400 <= 404)%Z) by lia.
  split; [exact H1|]. split; [exact H2|].
  exact (proj1 (error_responses_change_nothing cfg0 2000 _ store_ab bob_session _ _ H1 H2)).
Defined.

(** After an authenticated POST /post with a non-empty string, GET /posts
    lists the new post for any session of the same userId, and never for
    a session of another userId. *)
Theorem create_then_list (cfg : Config) (now1 now2 : Z) (st : Store)
    (session session2 : option Token) (user user2 : Payload) (s : string)
    (Hauth : authenticateJWT (SECRET_KEY cfg) now1 session = Pass user)
    (Hauth2 : authenticateJWT (SECRET_KEY cfg) now2 session2 = Pass user2)
    (Hs : s <> "") :
  exists id ps,
    (app cfg now1 (PostPost (JStr s)) st session).1.1 =
      Json 201 (BCreated "Post created successfully" id (mkPost (p_userId user) (FStr s))) /\
    app cfg now2 GetPosts (app cfg now1 (PostPost (JStr s)) st session).1.2 session2 =
      (Json 200 (BPosts ps), (app cfg now1 (PostPost (JStr s)) st session).1.2, session2) /\
    (In (id, mkPost (p_userId user) (FStr s)) ps <-> p_userId user2 = p_userId user).
Proof.
  simpl. rewrite (with_strict_pass _ _ _ _ _ _ Hauth). simpl.
  unfold create_post. simpl. destruct (String.eqb_spec s ""); [contradiction|]. simpl.
  eexists (new_post_id st), _. split; [reflexivity|].
  rewrite (with_strict_pass _ _ _ _ _ _ Hauth2). simpl. split; [reflexivity|].
  rewrite find_posts_by_user_In. simpl. rewrite lookup_insert_eq.
  split; [intros [_ H]; done | intros H; done].
Qed.

Lemma create_then_list_witness :
  authenticateJWT "s3cret" 2000 alice_session = Pass (mkPayload 1 (FStr "alice")) /\
  authenticateJWT "s3cret" 3000 bob_session = Pass (mkPayload 2 (FStr "bob")) /\
  "note" <> "" /\
  exists id ps,
    (app cfg0 2000 (PostPost (JStr "note")) store_ab alice_session).1.1 =
      Json 201 (BCreated "Post created successfully" id (mkPost 1 (FStr "note"))) /\
    app cfg0 3000 GetPosts (app cfg0 2000 (PostPost (JStr "note")) store_ab alice_session).1.2
      bob_session =
      (Json 200 (BPosts ps), (app cfg0 2000 (PostPost (JStr "note")) store_ab alice_session).1.2,
       bob_session) /\
    (In (id, mkPost 1 (FStr "note")) ps <-> 2 = 1).
Proof.
  assert (H1 : authenticateJWT "s3cret" 2000 alice_session = Pass (mkPayload 1 (FStr "alice")))
    by reflexivity.
  assert (H2 : authenticateJWT "s3cret" 3000 bob_session = Pass (mkPayload 2 (FStr "bob")))
    by reflexivity.
  assert (H3 : "note" <> "") by discriminate.
  split; [exact H1|]. split; [exact H2|]. split; [exact H3|].
  exact (create_then_list cfg0 2000 3000 store_ab alice_session bob_session _ _ "note" H1 H2 H3).
Defined.

(* ----- the registration check keeps usernames and emails unique ----- *)

Lemma field_eq_sym a b : field_eq a b = field_eq b a.
Proof. destruct a, b; simpl; try done. apply String.eqb_sym. Qed.

Lemma op_cast_not_id k v t : op_cast k v = Some t -> String.eqb k "_id" = false.
Proof.
  unfold op_cast.
  destruct (String.eqb_spec k "$eq") as [->|]; [done|].
  destruct (String.eqb_spec k "$ne") as [->|]; [done|].
  destruct (String.eqb_spec k "$in") as [->|]; [done|].
  destruct (String.eqb_spec k "$nin") as [->|]; [done|].
  discriminate.
Qed.

(* An object read as query operators carries no _id key. *)
Lemma ops_cast_no_id fs mu acc :
  ops_cast fs = Some mu ->
  fold_left (fun acc kv => if String.eqb kv.1 "_id" then Some kv.2 else acc) fs acc = acc.
Proof.
  revert mu acc. induction fs as [|[k v] fs IH]; intros mu acc Hops; [done|].
  simpl in Hops.
  destruct (op_cast k v) as [t|] eqn:Hk; [|done].
  destruct (ops_cast fs) as [t'|] eqn:Hfs; [|done].
  simpl. rewrite (op_cast_not_id _ _ _ Hk). by apply (IH t').
Qed.

(* When a body value both works as a filter and casts to a stored value,
   the filter is equality with that value. *)
Lemma query_cast_castString q mu c :
  query_cast q = Some mu -> castString q = Some c -> forall f, mu f = field_eq f c.
Proof.
  intros Hq Hc f. destruct q as [| | [] | z | s | l | fs].
  1-7: simpl in Hq, Hc; try discriminate Hc;
       injection Hc as <-; injection Hq as <-; reflexivity.
  unfold query_cast in Hq.
  destruct (existsb (fun kv => is_operator kv.1) fs).
  - exfalso. simpl in Hc. unfold js_get in Hc.
    rewrite (ops_cast_no_id _ _ _ Hq) in Hc. discriminate.
  - rewrite Hc in Hq. by injection Hq as <-.
Qed.

Lemma register_unique cfg now_ms u e p st session :
  unique_logins st -> unique_logins (register cfg now_ms u e p st session).1.2.
Proof.
  intros Huniq. unfold register.
  destruct (query_cast u) as [mu|] eqn:Hmu; [|done].
  destruct (query_cast e) as [me|] eqn:Hme; [|done].
  destruct (find_user _ st) eqn:Hf; [done|].
  destruct (castString u) as [cu|] eqn:Hcu; [|done].
  destruct (castString e) as [ce|] eqn:Hce; [|done].
  destruct (castString p) as [cp|]; [|done].
  simpl. pose proof (proj1 (find_user_None _ st) Hf) as Hnone.
  pose proof (query_cast_castString _ _ _ Hmu Hcu) as Eu.
  pose proof (query_cast_castString _ _ _ Hme Hce) as Ee.
  intros i j ui uj Hi Hj Hij. simpl in Hi, Hj.
  destruct (decide (i = new_user_id st)) as [->|Hi'];
    destruct (decide (j = new_user_id st)) as [->|Hj'].
  - contradiction.
  - rewrite lookup_insert_eq in Hi. injection Hi as <-.
    rewrite lookup_insert_ne in Hj by congruence.
    pose proof (Hnone _ _ Hj) as Hn. apply orb_false_iff in Hn as [H1 H2].
    rewrite Eu in H1. rewrite Ee in H2. simpl.
    by rewrite field_eq_sym, H1, field_eq_sym, H2.
  - rewrite lookup_insert_eq in Hj. injection Hj as <-.
    rewrite lookup_insert_ne in Hi by congruence.
    pose proof (Hnone _ _ Hi) as Hn. apply orb_false_iff in Hn as [H1 H2].
    rewrite Eu in H1. rewrite Ee in H2. simpl. by rewrite H1, H2.
  - rewrite lookup_insert_ne in Hi by congruence.
    rewrite lookup_insert_ne in Hj by congruence.
    by apply (Huniq i j).
Qed.

(** Requests applied one after another keep usernames and emails unique:
    if no two stored users match each other on username, nor on email,
    the same holds after any request, whatever its body values (the
    registration lookup is equality with exactly the value it then
    stores). *)
Theorem unique_logins_preserved (cfg : Config) (now_ms : Z) (req : Request) (st : Store)
    (session : option Token) (Huniq : unique_logins st) :
  unique_logins (app cfg now_ms req st session).1.2.
Proof.
  destruct req as [| | | | | | | | u e p | |];
    try (unfold unique_logins; rewrite app_users_non_register;
         [exact Huniq | intros ???; discriminate]).
  simpl. by apply register_unique.
Qed.

Lemma unique_logins_preserved_witness :
  unique_logins store_ab /\
  unique_logins (app cfg0 2000 (PostRegister (JStr "bob") (JStr "b@x.com") (JStr "pw"))
                   store_ab None).1.2.
Proof.
  assert (H : unique_logins store_ab).
  { intros i j ui uj Hi Hj Hij. simpl in Hi, Hj.
    apply lookup_singleton_Some in Hi as [Hi1 _].
    apply lookup_singleton_Some in Hj as [Hj1 _]. congruence. }
  split; [exact H|].
  exact (unique_logins_preserved cfg0 2000 _ store_ab None H).
Defined.

(* ----- every post belongs to a registered user ----- *)

Lemma authenticateJWT_Pass key now_ms session user :
  authenticateJWT key now_ms session = Pass user ->
  exists t, session = Some t /\ tok_key t = key /\ tok_payload t = user.
Proof.
  destruct session as [t|]; simpl; [|done].
  unfold jwt_verify. destruct (String.eqb_spec (tok_key t) key); simpl; [|done].
  destruct (Z.leb (tok_exp t) (now_ms `div` 1000)); [done|].
  intros [= <-]. by exists t.
Qed.

Lemma owners_registered_strict cfg now_ms session st user st' :
  owners_registered (SECRET_KEY cfg) st session ->
  authenticateJWT (SECRET_KEY cfg) now_ms session = Pass user ->
  users st' = users st ->
  (forall id p, posts st' !! id = Some p ->
     posts st !! id = Some p \/ userId p = p_userId user) ->
  owners_registered (SECRET_KEY cfg) st' session.
Proof.
  intros [Hpo Hse] Ha Hu Hp.
  destruct (authenticateJWT_Pass _ _ _ _ Ha) as (t & -> & Hk & Hpl).
  split.
  - intros id p Hid. rewrite Hu.
    destruct (Hp id p Hid) as [Hold|Hnew]; [by apply (Hpo id)|].
    rewrite Hnew, <- Hpl. by apply Hse.
  - intros t' Ht' Hk'. rewrite Hu. by apply Hse.
Qed.

(** Requests applied one after another keep the store referentially
    sound: if every stored post belongs to a stored user and the
    session's credential (when signed with the server key) names a stored
    user, the same holds after any request. A new post is owned by the
    userId of a verified credential, a credential is only issued for a
    stored or just-stored user, and users are never removed. *)
Theorem owners_registered_preserved (cfg : Config) (now_ms : Z) (req : Request) (st : Store)
    (session : option Token) (Hinv : owners_registered (SECRET_KEY cfg) st session) :
  owners_registered (SECRET_KEY cfg) (app cfg now_ms req st session).1.2
                    (app cfg now_ms req st session).2.
Proof.
  destruct req as [| | |text_in| |postId text_in|postId| |u e p|u p|]; simpl;
    try exact Hinv.
  - destruct (authenticateJWT (SECRET_KEY cfg) now_ms session) as [user|r] eqn:Ha;
      [rewrite (with_strict_pass _ _ _ _ _ _ Ha) | rewrite (with_strict_reject _ _ _ _ _ _ Ha); done].
    simpl. eapply owners_registered_strict; [exact Hinv | exact Ha | |].
    + unfold create_post. by repeat case_match.
    + intros id q Hid. unfold create_post in Hid. repeat case_match; simpl in Hid; [by left| |by left].
      destruct (decide (id = new_post_id st)) as [->|Hne].
      * rewrite lookup_insert_eq in Hid. injection Hid as <-. by right.
      * rewrite lookup_insert_ne in Hid by congruence. by left.
  - destruct (authenticateJWT (SECRET_KEY cfg) now_ms session) as [user|r] eqn:Ha;
      [rewrite (with_strict_pass _ _ _ _ _ _ Ha) | rewrite (with_strict_reject _ _ _ _ _ _ Ha); done].
    exact Hinv.
  - destruct (authenticateJWT (SECRET_KEY cfg) now_ms session) as [user|r] eqn:Ha;
      [rewrite (with_strict_pass _ _ _ _ _ _ Ha) | rewrite (with_strict_reject _ _ _ _ _ _ Ha); done].
    simpl. eapply owners_registered_strict; [exact Hinv | exact Ha | |].
    + unfold update_post. by repeat case_match.
    + intros id q Hid. unfold update_post in Hid.
      destruct (cast_text_update cfg text_in) as [upd|]; [|by left].
      destruct (find_owned_post postId (p_userId user) st) as [q0|] eqn:Hf; [|by left].
      apply find_owned_post_Some in Hf as [Hq0 Hu0]. simpl in Hid.
      destruct (decide (id = postId)) as [->|Hne].
      * rewrite lookup_insert_eq in Hid. injection Hid as <-. right.
        by destruct upd.
      * rewrite lookup_insert_ne in Hid by congruence. by left.
  - destruct (authenticateJWT (SECRET_KEY cfg) now_ms session) as [user|r] eqn:Ha;
      [rewrite (with_strict_pass _ _ _ _ _ _ Ha) | rewrite (with_strict_reject _ _ _ _ _ _ Ha); done].
    simpl. eapply owners_registered_strict; [exact Hinv | exact Ha | |].
    + unfold delete_post. by repeat case_match.
    + intros id q Hid. left. unfold delete_post in Hid.
      destruct (find_owned_post postId (p_userId user) st); [|done].
      simpl in Hid. by apply lookup_delete_Some in Hid as [_ ?].
  - unfold with_redirect. destruct (requireAuth _ _ _); exact Hinv.
  - destruct Hinv as [Hpo Hse]. unfold register.
    repeat case_match; simplify_eq/=; try (split; assumption).
    split.
    + intros id q Hid. simpl in Hid |- *. destruct (Hpo id q Hid) as [x Hx].
      rewrite lookup_insert_ne; [by eexists|].
      intros Heq. pose proof (new_user_id_fresh st) as Hf. congruence.
    + intros t [= <-] _. simpl. rewrite lookup_insert_eq. by eexists.
  - destruct Hinv as [Hpo Hse]. unfold login.
    repeat case_match; simplify_eq/=; try (split; assumption).
    split; [assumption|].
    intros t [= <-] _. simpl.
    match goal with H : find_user _ _ = Some _ |- _ => apply find_user_Some in H as [Hl _] end.
    by eexists.
  - split; [apply Hinv | done].
Qed.

Lemma owners_registered_preserved_witness :
  owners_registered "s3cret" store_ab alice_session /\
  owners_registered "s3cret"
    (app cfg0 2000 (PostPost (JStr "note")) store_ab alice_session).1.2
    (app cfg0 2000 (PostPost (JStr "note")) store_ab alice_session).2.
Proof.
  assert (H : owners_registered "s3cret" store_ab alice_session).
  { split.
    - intros id q Hid. simpl in Hid.
      apply lookup_singleton_Some in Hid as [_ <-]. simpl. by eexists.
    - intros t [= <-] _. simpl. by eexists. }
  split; [exact H|].
  exact (owners_registered_preserved cfg0 2000 (PostPost (JStr "note")) store_ab alice_session H).
Defined.
